(** * The VitePress site configuration of F2 (docs/.vitepress/config.mts)

    The module builds one nested object literal and hands it to the
    framework's [defineConfig].  Object and array literals are embedded as
    a tree of [value]s: an object literal is the list of its [key: value]
    properties in the order they are written (so that repeated keys and
    key order can be talked about), an array literal is the list of its
    elements.  Strings are the byte sequences of the UTF-8 source text. *)

From Stdlib Require Import String List ZArith Bool.
Import ListNotations.
Open Scope string_scope.

(** ** Literal values *)

Unset Elimination Schemes.
Inductive value : Type :=
| JStr (s : string)
| JNum (n : Z)
| JBool (b : bool)
| JArr (elems : list value)
| JObj (props : list (string * value)).
Set Elimination Schemes.

(** Induction over a literal reaches the elements of arrays and the values
    of properties. *)
Definition value_ind (P : value -> Prop)
  (HStr : forall s, P (JStr s))
  (HNum : forall n, P (JNum n))
  (HBool : forall b, P (JBool b))
  (HArr : forall l, Forall P l -> P (JArr l))
  (HObj : forall ps, Forall (fun kv => P (snd kv)) ps -> P (JObj ps)) :
  forall v, P v :=
  fix go (v : value) : P v :=
    match v with
    | JStr s => HStr s
    | JNum n => HNum n
    | JBool b => HBool b
    | JArr l =>
        HArr l ((fix all (l : list value) : Forall P l :=
                   match l with
                   | [] => Forall_nil _
                   | x :: r => Forall_cons _ (go x) (all r)
                   end) l)
    | JObj ps =>
        HObj ps ((fix all (ps : list (string * value)) :
                    Forall (fun kv => P (snd kv)) ps :=
                    match ps with
                    | [] => Forall_nil _
                    | kv :: r => Forall_cons _ (go (snd kv)) (all r)
                    end) ps)
    end.

(** Deep (structural) comparison of two literals. *)
Fixpoint value_eqb (a b : value) {struct a} : bool :=
  match a, b with
  | JStr s, JStr t => String.eqb s t
  | JNum n, JNum m => Z.eqb n m
  | JBool x, JBool y => Bool.eqb x y
  | JArr l, JArr r =>
      (fix all (l r : list value) {struct l} : bool :=
         match l, r with
         | [], [] => true
         | x :: l', y :: r' => value_eqb x y && all l' r'
         | _, _ => false
         end) l r
  | JObj ps, JObj qs =>
      (fix all (ps qs : list (string * value)) {struct ps} : bool :=
         match ps, qs with
         | [], [] => true
         | (k, x) :: ps', (j, y) :: qs' =>
             String.eqb k j && value_eqb x y && all ps' qs'
         | _, _ => false
         end) ps qs
  | _, _ => false
  end.

(** The keys of an object literal, in the order they are written. *)
Definition own_keys (v : value) : list string :=
  match v with
  | JObj ps => map fst ps
  | _ => []
  end.

(** Reading a property out of the written property list: when a key is
    written more than once, the later occurrence is the one that counts. *)
Fixpoint lookup_last (k : string) (ps : list (string * value)) : option value :=
  match ps with
  | [] => None
  | (j, v) :: r =>
      match lookup_last k r with
      | Some w => Some w
      | None => if String.eqb k j then Some v else None
      end
  end.

(** [o.k]; [None] stands for [undefined]. *)
Definition prop (k : string) (v : value) : option value :=
  match v with
  | JObj ps => lookup_last k ps
  | _ => None
  end.

Definition has_prop (k : string) (v : value) : bool :=
  match prop k v with
  | Some _ => true
  | None => false
  end.

(** [o.k1.k2...kn] *)
Fixpoint path (ks : list string) (v : value) : option value :=
  match ks with
  | [] => Some v
  | k :: r =>
      match prop k v with
      | Some w => path r w
      | None => None
      end
  end.

(** The elements of an array literal. *)
Definition elements (v : value) : list value :=
  match v with
  | JArr l => l
  | _ => []
  end.

(** The string held by a property, when it is one. *)
Definition str_prop (k : string) (v : value) : option string :=
  match prop k v with
  | Some (JStr s) => Some s
  | _ => None
  end.

(** ** The module *)

(** What the module imports from its host: [import.meta.url],
    [createRequire] of 'module' (the [require] it builds either returns the
    exports of the requested module or throws, [None]), and [defineConfig]
    of 'vitepress'. *)
Record Host : Type := {
  import_meta_url : string;
  createRequire : string -> string -> option value;
  defineConfig : value -> value
}.

(** The top-level [const] bindings of the module. *)
Record Scope : Type := {
  require : string -> option value;
  pkg : value;
  version : string
}.

Section Module_body.

Variable sc : Scope.

Definition cn_nav (_ : unit) : value :=
  JArr [
    JObj [
      ("text", JStr "指南");
      ("link", JStr "/guide/what-is-f2");
      ("activeMatch", JStr "/guide/")
    ];
    JObj [
      ("text", JStr "参考");
      ("link", JStr "/reference/site-config");
      ("activeMatch", JStr "/reference/")
    ];
    JObj [
      ("text", JStr (version sc));
      ("items", JArr [
        JObj [
          ("text", JStr "更新日志");
          ("link", JStr "https://github.com/Johnserf-Seed/f2/blob/main/CHANGELOG.md")
        ];
        JObj [
          ("text", JStr "贡献指南");
          ("link", JStr "https://github.com/Johnserf-Seed/f2/blob/main/.github/contributing.md")
        ]
      ])
    ]
  ].

Definition en_nav (_ : unit) : value :=
  JArr [
    JObj [
      ("text", JStr "guide");
      ("link", JStr "/en/guide/what-is-f2");
      ("activeMatch", JStr "/guide/")
    ];
    JObj [
      ("text", JStr "reference");
      ("link", JStr "/en/reference/site-config");
      ("activeMatch", JStr "/reference/")
    ];
    JObj [
      ("text", JStr (version sc));
      ("items", JArr [
        JObj [
          ("text", JStr "Changelog");
          ("link", JStr "https://github.com/Johnserf-Seed/f2/blob/main/CHANGELOG.md")
        ];
        JObj [
          ("text", JStr "Contributing");
          ("link", JStr "https://github.com/Johnserf-Seed/f2/blob/main/.github/contributing.md")
        ]
      ])
    ]
  ].

(** The object literal passed to [defineConfig]. *)
Definition user_config : value :=
  JObj [
    ("title", JStr "F2");
    ("description", JStr "Fast 2 Every");
    ("base", JStr "/f2/");
    ("lastUpdated", JBool true);

    ("head", JArr [
      JArr [JStr "link";
            JObj [("rel", JStr "icon"); ("type", JStr "image/svg+xml");
                  ("href", JStr "/f2-logo.ico")]]
    ]);
    ("themeConfig", JObj [
      ("logo", JObj [("src", JStr "/f2-logo.ico"); ("width", JNum 256);
                     ("height", JNum 256)]);
      ("socialLinks", JArr [
        JObj [("icon", JStr "github");
              ("link", JStr "https://github.com/Johnserf-Seed/f2")];
        JObj [("icon", JStr "discord");
              ("link", JStr "https://discord.gg/3PhtPmgHf8")]
      ]);
      ("algolia", JObj [
        ("appId", JStr "");
        ("apiKey", JStr "");
        ("indexName", JStr "f2")
      ]);
      ("footer", JObj [
        ("message", JStr "Released under the Apache-2.0 license.");
        ("copyright", JStr "Copyright © 2023-present Johnserf Seed")
      ]);
      ("editLink", JObj [
        ("pattern", JStr "https://github.com/Johnserf-Seed/f2/edit/main/docs/:path");
        ("text", JStr "Edit this page on GitHub")
      ])
    ]);

    ("locales", JObj [
      ("root", JObj [
        ("label", JStr "简体中文");
        ("lang", JStr "zh");
        ("themeConfig", JObj [
          ("nav", cn_nav tt);
          ("sidebar", JObj [
            ("/", JArr [
              JObj [
                ("text", JStr "快速入门");
                ("items", JArr [
                  JObj [("text", JStr "安装"); ("link", JStr "/install")];
                  JObj [("text", JStr "快速使用"); ("link", JStr "/quick-start")];
                  JObj [("text", JStr "进阶用法"); ("link", JStr "/advance-guide")]
                ])
              ]
            ]);
            ("/guide/", JArr [
              JObj [
                ("text", JStr "指南");
                ("items", JArr [
                  JObj [("text", JStr "使用示例"); ("link", JStr "/api-examples")]
                ])
              ]
            ])
          ])
        ])
      ]);

      ("en", JObj [
        ("label", JStr "English");
        ("lang", JStr "en");
        ("themeConfig", JObj [
          ("nav", en_nav tt);
          ("sidebar", JObj [
            ("/", JArr [
              JObj [
                ("text", JStr "Quick Start");
                ("items", JArr [
                  JObj [("text", JStr "Install"); ("link", JStr "/en/install")];
                  JObj [("text", JStr "Quick Start"); ("link", JStr "/en/quick-start")];
                  JObj [("text", JStr "Advance Guide"); ("link", JStr "/en/advance-guide")]
                ])
              ]
            ]);
            ("/guide/", JArr [
              JObj [
                ("text", JStr "Guide");
                ("items", JArr [
                  JObj [("text", JStr "API Examples"); ("link", JStr "/api-examples")]
                ])
              ]
            ])
          ])
        ])
      ])
    ])
  ].

End Module_body.

(** Evaluating the module body top to bottom: [require] is built from
    [import.meta.url], [pkg] is required (the evaluation stops there when
    [require] throws), [version] is bound, and the default export is
    [defineConfig] applied to the literal.  The function declarations
    [cn_nav] and [en_nav] are hoisted, so the literal can call them. *)
Definition module_scope (h : Host) : option Scope :=
  let require := createRequire h (import_meta_url h) in
  match require "vitepress/package.json" with
  | None => None
  | Some pkg =>
      Some {| require := require; pkg := pkg; version := "v0.0.1-pw.1" |}
  end.

Definition default_export (h : Host) : option value :=
  match module_scope h with
  | None => None
  | Some sc => Some (defineConfig h (user_config sc))
  end.

(** ** Derived views used by the statements below *)

(** A navigation entry that is a plain link: it carries a text, a link
    target and an active-match prefix. *)
Definition is_link_entry (v : value) : bool :=
  has_prop "text" v && has_prop "link" v && has_prop "activeMatch" v.

(** A navigation entry that is a dropdown: a text and a list of children,
    neither a link target nor an active-match prefix of its own. *)
Definition is_dropdown_entry (v : value) : bool :=
  has_prop "text" v && has_prop "items" v
  && negb (has_prop "link" v) && negb (has_prop "activeMatch" v).

(** A child of a dropdown: a text and a link target, no active-match
    prefix. *)
Definition is_dropdown_child (v : value) : bool :=
  has_prop "text" v && has_prop "link" v && negb (has_prop "activeMatch" v).

(** The children of a group or of a dropdown. *)
Definition items_of (v : value) : list value :=
  match prop "items" v with
  | Some a => elements a
  | None => []
  end.

(** Number of items of each top-level group shown under one URL prefix. *)
Definition group_sizes (groups : value) : list nat :=
  map (fun g => length (items_of g)) (elements groups).

(** The shape of a sidebar mapping: its URL prefixes, each with the sizes
    of its groups. *)
Definition sidebar_shape (sb : value) : list (string * list nat) :=
  match sb with
  | JObj ps => map (fun kv => (fst kv, group_sizes (snd kv))) ps
  | _ => []
  end.

(** The link targets of the items of all groups under one URL prefix. *)
Definition group_links (groups : value) : list (option string) :=
  flat_map (fun g => map (str_prop "link") (items_of g)) (elements groups).

Definition locale_nav (cfg : value) (loc : string) : option value :=
  path ["locales"; loc; "themeConfig"; "nav"] cfg.

Definition locale_sidebar (cfg : value) (loc : string) : option value :=
  path ["locales"; loc; "themeConfig"; "sidebar"] cfg.

(** Sample hosts: two whose [require] resolves every request, to different
    modules and from different locations, and one whose [require] always
    throws. *)
Definition plain_host : Host :=
  {| import_meta_url := "file:///docs/.vitepress/config.mts";
     createRequire := fun _ _ => Some (JObj []);
     defineConfig := fun c => c |}.

Definition other_host : Host :=
  {| import_meta_url := "file:///elsewhere/config.mts";
     createRequire := fun _ _ => Some (JObj [("version", JStr "1.0.0")]);
     defineConfig := fun c => c |}.

Definition broken_host : Host :=
  {| import_meta_url := "";
     createRequire := fun _ _ => None;
     defineConfig := fun c => c |}.

Definition plain_scope : Scope :=
  {| require := fun _ => Some (JObj []);
     pkg := JObj [];
     version := "v0.0.1-pw.1" |}.

(** ** Predicates of the statements *)

(** Whether [appId], [apiKey] and [indexName] of [themeConfig.algolia] are
    all the empty string. *)
Definition algolia_all_empty (cfg : value) : bool :=
  forallb (fun k => match path ["themeConfig"; "algolia"; k] cfg with
                    | Some (JStr "") => true
                    | _ => false
                    end)
          ["appId"; "apiKey"; "indexName"].

Definition guide_entry (v : value) : Prop :=
  is_link_entry v = true /\ str_prop "activeMatch" v = Some "/guide/".

Definition reference_entry (v : value) : Prop :=
  is_link_entry v = true /\ str_prop "activeMatch" v = Some "/reference/".

Definition version_dropdown (sc : Scope) (v : value) : Prop :=
  is_dropdown_entry v = true /\ str_prop "text" v = Some (version sc).

(** A builder result made of exactly a guide entry, a reference entry and
    the version dropdown, in this order. *)
Definition guide_reference_version (sc : Scope) (nav : value) : Prop :=
  exists g r d,
    nav = JArr [g; r; d]
    /\ guide_entry g /\ reference_entry r /\ version_dropdown sc d.

(** Whether every entry of a navigation has a text, a link target and an
    active-match prefix. *)
Definition all_link_entries (nav : value) : bool :=
  forallb is_link_entry (elements nav).

(** The shape the builders do produce: plain link entries, and dropdowns
    whose children are text-and-link pairs. *)
Definition nav_entry_shape (v : value) : bool :=
  has_prop "text" v
  && (is_link_entry v
      || (is_dropdown_entry v && forallb is_dropdown_child (items_of v))).

(** Every key of the list occurs in it exactly once. *)
Definition keys_once (ks : list string) : Prop :=
  Forall (fun k => count_occ string_dec ks k = 1%nat) ks.

Definition site_keys : list string :=
  ["title"; "description"; "base"; "lastUpdated"; "head"; "themeConfig";
   "locales"].

Definition theme_keys : list string :=
  ["logo"; "socialLinks"; "algolia"; "footer"; "editLink"; "nav"; "sidebar"].

(** Whether every key of [ks] is one of [allowed]. *)
Definition keys_among (allowed ks : list string) : bool :=
  forallb (fun k => existsb (String.eqb k) allowed) ks.

(** The [activeMatch] prefixes of the entries of a navigation ([None] for
    an entry without one) and their link targets. *)
Definition active_matches (nav : value) : list (option string) :=
  map (str_prop "activeMatch") (elements nav).

Definition link_targets (nav : value) : list (option string) :=
  map (str_prop "link") (elements nav).

(** Whether a link target lies under a path prefix. *)
Definition under (pre : string) (target : option string) : bool :=
  match target with
  | Some l => String.prefix pre l
  | None => false
  end.

(** ** Further views of the literal *)

(** Reading a property with the first written occurrence winning, the
    other way a repeated key could be resolved. *)
Fixpoint lookup_first (k : string) (ps : list (string * value)) : option value :=
  match ps with
  | [] => None
  | (j, v) :: r => if String.eqb k j then Some v else lookup_first k r
  end.

Definition prop_first (k : string) (v : value) : option value :=
  match v with
  | JObj ps => lookup_first k ps
  | _ => None
  end.

Fixpoint path_first (ks : list string) (v : value) : option value :=
  match ks with
  | [] => Some v
  | k :: r =>
      match prop_first k v with
      | Some w => path_first r w
      | None => None
      end
  end.

(** Whether no string occurs twice in a list of keys. *)
Fixpoint distinct_keys (ks : list string) : bool :=
  match ks with
  | [] => true
  | k :: r => negb (existsb (String.eqb k) r) && distinct_keys r
  end.

(** Whether no object literal anywhere inside a value writes a key twice. *)
Fixpoint keys_written_once (v : value) : bool :=
  match v with
  | JArr l => forallb keys_written_once l
  | JObj ps =>
      distinct_keys (map fst ps)
      && forallb (fun kv => keys_written_once (snd kv)) ps
  | _ => true
  end.

(** The values of all [link] properties written anywhere inside a value,
    in source order. *)
Fixpoint all_links (v : value) : list value :=
  match v with
  | JArr l => flat_map all_links l
  | JObj ps =>
      flat_map (fun kv =>
                  List.app
                    (if String.eqb (fst kv) "link" then [snd kv] else [])
                    (all_links (snd kv))) ps
  | _ => []
  end.

(** A link target that is a site-rooted path, resp. an https URL. *)
Definition site_rooted (v : value) : bool :=
  match v with
  | JStr s => String.prefix "/" s
  | _ => false
  end.

Definition https_url (v : value) : bool :=
  match v with
  | JStr s => String.prefix "https://" s
  | _ => false
  end.

(** Whether a link target starts with the site's [base]. *)
Definition repeats_base (cfg v : value) : bool :=
  match str_prop "base" cfg, v with
  | Some b, JStr s => String.prefix b s
  | _, _ => false
  end.

(** Whether [pat] occurs somewhere inside [s]. *)
Fixpoint occurs_in (pat s : string) : bool :=
  String.prefix pat s
  || match s with
     | EmptyString => false
     | String _ r => occurs_in pat r
     end.

(** For each link entry of a navigation, in which entries' link targets
    its [activeMatch] text occurs. *)
Definition active_match_table (nav : value) : list (list bool) :=
  let entries := filter is_link_entry (elements nav) in
  map (fun a =>
         map (fun b =>
                match str_prop "activeMatch" a, str_prop "link" b with
                | Some m, Some l => occurs_in m l
                | _, _ => false
                end) entries) entries.

(** The English counterpart of a root-locale link target. *)
Definition en_of (target : option string) : option string :=
  option_map (append "/en") target.

(** The link targets of the children of every entry of a navigation. *)
Definition child_links (nav : value) : list (list (option string)) :=
  map (fun v => map (str_prop "link") (items_of v)) (elements nav).

(** A sidebar item: a text and a link target, both strings. *)
Definition is_sidebar_item (v : value) : bool :=
  match str_prop "text" v, str_prop "link" v with
  | Some _, Some _ => true
  | _, _ => false
  end.

(** A sidebar group: a text and a non-empty list of sidebar items. *)
Definition is_sidebar_group (v : value) : bool :=
  match str_prop "text" v, items_of v with
  | Some _, (_ :: _) as its => forallb is_sidebar_item its
  | _, _ => false
  end.

(** A sidebar mapping: under every URL prefix a non-empty list of
    sidebar groups. *)
Definition is_sidebar (sb : value) : bool :=
  match sb with
  | JObj ps =>
      forallb (fun kv => match elements (snd kv) with
                         | [] => false
                         | gs => forallb is_sidebar_group gs
                         end) ps
  | _ => false
  end.

(** Whether two key lists have no key in common. *)
Definition keys_disjoint (ks js : list string) : bool :=
  forallb (fun k => negb (existsb (String.eqb k) js)) ks.

(** The text of the version dropdown, the third entry of a locale's
    navigation. *)
Definition version_text (cfg : value) (loc : string) : option string :=
  match locale_nav cfg loc with
  | Some nav =>
      match nth_error (elements nav) 2 with
      | Some d => str_prop "text" d
      | None => None
      end
  | None => None
  end.

(** * Properties *)

(** ** Structural comparison decides equality *)

Lemma value_eqb_refl (v : value) : value_eqb v v = true.
Proof.
  induction v as [s|n|b|l IH|ps IH] using value_ind; simpl.
  - apply String.eqb_refl.
  - apply Z.eqb_refl.
  - apply Bool.eqb_reflx.
  - induction IH as [|x r Hx _ IHr]; [reflexivity|].
    now rewrite Hx, IHr.
  - induction IH as [|[k x] r Hx _ IHr]; [reflexivity|].
    simpl in Hx. now rewrite String.eqb_refl, Hx, IHr.
Qed.

Lemma value_eqb_sound (a : value) : forall b, value_eqb a b = true -> a = b.
Proof.
  induction a as [s|n|x|l IH|ps IH] using value_ind;
    intros [t|m|y|r|qs] H;
    simpl in H; try discriminate.
  - apply String.eqb_eq in H. now subst.
  - apply Z.eqb_eq in H. now subst.
  - apply Bool.eqb_prop in H. now subst.
  - f_equal. revert r H.
    induction IH as [|a l Ha _ IHl]; intros [|b r] H; try discriminate.
    + reflexivity.
    + apply andb_true_iff in H as [H1 H2].
      f_equal; [now apply Ha | now apply IHl].
  - f_equal. revert qs H.
    induction IH as [|[k a] ps Ha _ IHps]; intros [|[j b] qs] H;
      try discriminate.
    + reflexivity.
    + apply andb_true_iff in H as [H12 H3].
      apply andb_true_iff in H12 as [H1 H2].
      apply String.eqb_eq in H1. simpl in Ha. apply Ha in H2.
      subst. f_equal. now apply IHps.
Qed.

Lemma value_eqb_eq (a b : value) : value_eqb a b = true <-> a = b.
Proof.
  split; [apply value_eqb_sound | intros ->; apply value_eqb_refl].
Qed.

(** ** Reading properties of a literal *)

Lemma lookup_last_absent k ps :
  ~ In k (map fst ps) -> lookup_last k ps = None.
Proof.
  induction ps as [|[j v] r IH]; simpl; intros H; [reflexivity|].
  rewrite IH by tauto.
  destruct (String.eqb_spec k j) as [->|_]; [tauto | reflexivity].
Qed.

(** When no key is written twice, every written property is the one that
    is read back: nothing is shadowed. *)
Lemma lookup_last_NoDup k v ps :
  NoDup (map fst ps) -> In (k, v) ps -> lookup_last k ps = Some v.
Proof.
  induction ps as [|[j w] r IH]; simpl; intros Hnd Hin; [tauto|].
  inversion Hnd as [|? ? Hj Hr]; subst.
  destruct Hin as [Heq|Hin].
  - inversion Heq; subst.
    rewrite (lookup_last_absent _ _ Hj), String.eqb_refl. reflexivity.
  - now rewrite (IH Hr Hin).
Qed.

Lemma lookup_last_In k v ps : lookup_last k ps = Some v -> In (k, v) ps.
Proof.
  induction ps as [|[j w] r IH]; simpl; [discriminate|].
  destruct (lookup_last k r) as [u|].
  - intros H; inversion H; subst. right. now apply IH.
  - destruct (String.eqb_spec k j) as [->|_]; [|discriminate].
    intros H; inversion H; subst. now left.
Qed.

Lemma prop_own_key k v w : prop k v = Some w -> In k (own_keys v).
Proof.
  destruct v as [| | | |ps]; simpl; try discriminate.
  intros H. apply lookup_last_In in H.
  apply (in_map fst) in H. exact H.
Qed.

(** ** The literal only reads [version] from the scope *)

Lemma cn_nav_reads_version (s1 s2 : Scope) :
  version s1 = version s2 -> cn_nav s1 tt = cn_nav s2 tt.
Proof. unfold cn_nav. now intros ->. Qed.

Lemma en_nav_reads_version (s1 s2 : Scope) :
  version s1 = version s2 -> en_nav s1 tt = en_nav s2 tt.
Proof. unfold en_nav. now intros ->. Qed.

Lemma user_config_reads_version (s1 s2 : Scope) :
  version s1 = version s2 -> user_config s1 = user_config s2.
Proof.
  intros H. unfold user_config.
  now rewrite (cn_nav_reads_version _ _ H), (en_nav_reads_version _ _ H).
Qed.

Lemma module_scope_version h sc :
  module_scope h = Some sc -> version sc = "v0.0.1-pw.1".
Proof.
  unfold module_scope.
  destruct (createRequire h (import_meta_url h) "vitepress/package.json");
    [|discriminate].
  intros H; inversion H; reflexivity.
Qed.

(** The module evaluates to a value exactly when [require] resolves the
    package description. *)
Lemma default_export_defined h :
  createRequire h (import_meta_url h) "vitepress/package.json" <> None ->
  exists sc, module_scope h = Some sc
             /\ default_export h = Some (defineConfig h (user_config sc)).
Proof.
  intros H. unfold default_export, module_scope.
  destruct (createRequire h (import_meta_url h) "vitepress/package.json")
    as [p|]; [|congruence].
  eexists; split; reflexivity.
Qed.

(** When [require] throws, nothing is exported; otherwise the export is
    [defineConfig] of the literal. *)
Example default_export_broken : default_export broken_host = None.
Proof. reflexivity. Qed.

Example default_export_plain :
  default_export plain_host = Some (user_config plain_scope).
Proof. reflexivity. Qed.

Example site_title (sc : Scope) :
  str_prop "title" (user_config sc) = Some "F2".
Proof. reflexivity. Qed.

Example version_entry_text h sc :
  module_scope h = Some sc ->
  option_map (str_prop "text") (nth_error (elements (en_nav sc tt)) 2)
  = Some (Some "v0.0.1-pw.1").
Proof.
  intros H. simpl. now rewrite (module_scope_version _ _ H).
Qed.

(** ** Search-provider credentials *)

(** C1, as stated, fails: the three credential fields are not all empty,
    because [indexName] is ['f2']. *)
Lemma algolia_not_all_empty :
  algolia_all_empty (user_config plain_scope) = false.
Proof. reflexivity. Qed.

(** C1, amended: in the theme config's [algolia] record, [appId] and
    [apiKey] are empty strings and [indexName] is the string ['f2']. *)
Theorem algolia_credentials (sc : Scope) :
  path ["themeConfig"; "algolia"; "appId"] (user_config sc) = Some (JStr "")
  /\ path ["themeConfig"; "algolia"; "apiKey"] (user_config sc) = Some (JStr "")
  /\ path ["themeConfig"; "algolia"; "indexName"] (user_config sc)
     = Some (JStr "f2")
  /\ option_map own_keys (path ["themeConfig"; "algolia"] (user_config sc))
     = Some ["appId"; "apiKey"; "indexName"].
Proof. repeat split. Qed.

(** ** Navigation *)

Lemma guide_reference_version_length sc nav :
  guide_reference_version sc nav ->
  length (elements nav) = 3 /\ elements nav <> [].
Proof.
  intros (g & r & d & -> & _). simpl. split; [reflexivity | discriminate].
Qed.

(** C2: for both declared locales, root and en, the locale's navigation is
    what its builder ([cn_nav], resp. [en_nav]) returns, and that is a
    non-empty sequence of exactly three entries: a guide entry, a
    reference entry and the version dropdown, in this order. *)
Theorem nav_guide_reference_version (sc : Scope) :
  (locale_nav (user_config sc) "root" = Some (cn_nav sc tt)
   /\ guide_reference_version sc (cn_nav sc tt)
   /\ length (elements (cn_nav sc tt)) = 3
   /\ elements (cn_nav sc tt) <> [])
  /\
  (locale_nav (user_config sc) "en" = Some (en_nav sc tt)
   /\ guide_reference_version sc (en_nav sc tt)
   /\ length (elements (en_nav sc tt)) = 3
   /\ elements (en_nav sc tt) <> []).
Proof.
  assert (Hcn : guide_reference_version sc (cn_nav sc tt)).
  { unfold cn_nav. do 3 eexists. split; [reflexivity|].
    repeat split. }
  assert (Hen : guide_reference_version sc (en_nav sc tt)).
  { unfold en_nav. do 3 eexists. split; [reflexivity|].
    repeat split. }
  split.
  - split; [reflexivity|]. split; [exact Hcn|].
    exact (guide_reference_version_length _ _ Hcn).
  - split; [reflexivity|]. split; [exact Hen|].
    exact (guide_reference_version_length _ _ Hen).
Qed.

(** C3, as stated, fails: the third entry returned by [cn_nav], the version
    dropdown, has neither a link target nor an active-match prefix. *)
Lemma cn_nav_not_all_link_entries :
  all_link_entries (cn_nav plain_scope tt) = false
  /\ option_map (has_prop "link") (nth_error (elements (cn_nav plain_scope tt)) 2)
     = Some false
  /\ option_map (has_prop "activeMatch")
       (nth_error (elements (cn_nav plain_scope tt)) 2) = Some false.
Proof. repeat split. Qed.

(** C3, amended: every navigation item produced by [cn_nav] and [en_nav]
    has a display text; the first two items (guide, reference) have all
    three of display text, link target and active-match prefix; the third
    item (the version dropdown) has a display text and a list of child
    items in place of a link target and an active-match prefix, and each
    child has a display text and a link target and no active-match
    prefix. *)
Theorem nav_entry_shapes (sc : Scope) :
  Forall (fun nav =>
            Forall (fun v => has_prop "text" v = true
                             /\ nav_entry_shape v = true) (elements nav)
            /\ map is_link_entry (elements nav) = [true; true; false]
            /\ map is_dropdown_entry (elements nav) = [false; false; true]
            /\ map (fun v => map is_dropdown_child (items_of v)) (elements nav)
               = [[]; []; [true; true]])
         [cn_nav sc tt; en_nav sc tt].
Proof.
  repeat constructor.
Qed.

(** ** The two locales mirror each other *)

(** Equal shapes give, prefix by prefix, the same number of groups and the
    same number of items in each group. *)
Lemma sidebar_shape_parallel (a b : value) :
  sidebar_shape a = sidebar_shape b ->
  map fst (sidebar_shape a) = map fst (sidebar_shape b)
  /\ map (fun p => length (snd p)) (sidebar_shape a)
     = map (fun p => length (snd p)) (sidebar_shape b)
  /\ length (sidebar_shape a) = length (sidebar_shape b).
Proof. intros ->. repeat split. Qed.

Lemma sidebar_shape_keys (sb : value) :
  map fst (sidebar_shape sb) = own_keys sb.
Proof.
  destruct sb as [| | | |ps]; try reflexivity.
  simpl. rewrite map_map. reflexivity.
Qed.

(** C4: [cn_nav] and [en_nav] return sequences of the same length, and the
    sidebar mappings of the root and en locales have the same number of
    URL-prefix keys, with the same number of top-level groups and of items
    per group under corresponding prefixes. *)
Theorem locales_structurally_parallel (sc : Scope) :
  length (elements (cn_nav sc tt)) = length (elements (en_nav sc tt))
  /\ exists sr se,
       locale_sidebar (user_config sc) "root" = Some sr
       /\ locale_sidebar (user_config sc) "en" = Some se
       /\ length (own_keys sr) = length (own_keys se)
       /\ own_keys sr = own_keys se
       /\ map (fun p => length (snd p)) (sidebar_shape sr)
          = map (fun p => length (snd p)) (sidebar_shape se)
       /\ sidebar_shape sr = sidebar_shape se
       /\ sidebar_shape sr = [("/", [3%nat]); ("/guide/", [1%nat])].
Proof.
  split; [reflexivity|].
  do 2 eexists. split; [reflexivity|]. split; [reflexivity|].
  match goal with
  | |- length (own_keys ?a) = length (own_keys ?b) /\ _ =>
      assert (Heq : sidebar_shape a = sidebar_shape b) by reflexivity;
      destruct (sidebar_shape_parallel a b Heq) as (Hk & Hg & _)
  end.
  rewrite !sidebar_shape_keys in Hk.
  rewrite Hk. split; [reflexivity|]. split; [reflexivity|].
  split; [exact Hg|]. split; reflexivity.
Qed.

(** ** Determinism *)

(** C5: constructing the configuration is deterministic.  Whatever the
    host provides for [import.meta.url] and [require], and whatever
    [require] returns for the package description, the builders [cn_nav]
    and [en_nav] and the configuration literal come out structurally
    identical, and so does the default export when [defineConfig] is the
    same function. *)
Theorem construction_deterministic (h1 h2 : Host) (s1 s2 : Scope) :
  module_scope h1 = Some s1 ->
  module_scope h2 = Some s2 ->
  value_eqb (cn_nav s1 tt) (cn_nav s2 tt) = true
  /\ value_eqb (en_nav s1 tt) (en_nav s2 tt) = true
  /\ value_eqb (user_config s1) (user_config s2) = true
  /\ ((forall c, defineConfig h1 c = defineConfig h2 c) ->
      default_export h1 = default_export h2
      /\ default_export h1 = Some (defineConfig h1 (user_config s1))).
Proof.
  intros H1 H2.
  assert (Hv : version s1 = version s2).
  { rewrite (module_scope_version _ _ H1), (module_scope_version _ _ H2).
    reflexivity. }
  rewrite !value_eqb_eq.
  split; [now apply cn_nav_reads_version|].
  split; [now apply en_nav_reads_version|].
  split; [now apply user_config_reads_version|].
  intros Hd. unfold default_export. rewrite H1, H2.
  rewrite (user_config_reads_version _ _ Hv), Hd. split; reflexivity.
Qed.

Lemma construction_deterministic_witness :
  value_eqb (cn_nav plain_scope tt)
            (cn_nav {| require := createRequire other_host (import_meta_url other_host);
                       pkg := JObj [("version", JStr "1.0.0")];
                       version := "v0.0.1-pw.1" |} tt) = true
  /\ default_export plain_host = default_export other_host.
Proof.
  destruct (construction_deterministic plain_host other_host _ _
              eq_refl eq_refl) as (Hcn & _ & _ & Hd).
  split; [exact Hcn|].
  exact (proj1 (Hd (fun c => eq_refl))).
Defined.

(** ** Keys are written once *)

Lemma keys_once_NoDup (ks : list string) : keys_once ks <-> NoDup ks.
Proof.
  unfold keys_once.
  rewrite (NoDup_count_occ' string_dec), Forall_forall. reflexivity.
Qed.

(** In an object literal whose keys are written once, each written
    property is the one read back under its key. *)
Lemma written_is_read (ps : list (string * value)) :
  NoDup (own_keys (JObj ps)) ->
  Forall (fun kv => prop (fst kv) (JObj ps) = Some (snd kv)) ps.
Proof.
  intros Hnd. apply Forall_forall. intros [k v] Hin.
  simpl. now apply lookup_last_NoDup.
Qed.

Ltac keys_distinct :=
  repeat (constructor; [simpl; intuition discriminate|]); constructor.

(** C6: within each locale's sidebar mapping, the URL-prefix keys ['/']
    and ['/guide/'] each occur exactly once; the keys are pairwise
    distinct. *)
Theorem sidebar_prefixes_unique (sc : Scope) :
  Forall (fun loc =>
            exists sb,
              locale_sidebar (user_config sc) loc = Some sb
              /\ own_keys sb = ["/"; "/guide/"]
              /\ keys_once (own_keys sb)
              /\ NoDup (own_keys sb))
         ["root"; "en"].
Proof.
  assert (Hnd : NoDup ["/"; "/guide/"]) by keys_distinct.
  repeat constructor;
    (eexists; split; [reflexivity|]; split; [reflexivity|];
     split; [apply keys_once_NoDup|]; exact Hnd).
Qed.

(** C7: the keys of the [locales] mapping are pairwise distinct; they are
    exactly ['root'] and ['en']. *)
Theorem locale_keys_unique (sc : Scope) :
  exists ls,
    prop "locales" (user_config sc) = Some ls
    /\ own_keys ls = ["root"; "en"]
    /\ NoDup (own_keys ls)
    /\ keys_once (own_keys ls).
Proof.
  eexists. split; [reflexivity|]. split; [reflexivity|].
  assert (Hnd : NoDup ["root"; "en"]) by keys_distinct.
  split; [exact Hnd | now apply keys_once_NoDup].
Qed.

(** ** Keys handed to the framework *)

Lemma keys_among_incl (allowed ks : list string) :
  keys_among allowed ks = true <-> incl ks allowed.
Proof.
  unfold keys_among, incl. rewrite forallb_forall.
  split; intros H k Hk.
  - apply H in Hk. apply existsb_exists in Hk as (a & Ha & Heq).
    apply String.eqb_eq in Heq. now subst.
  - apply existsb_exists. exists k. split; [now apply H|].
    apply String.eqb_refl.
Qed.

(** C8: the record passed to [defineConfig] has exactly the top-level keys
    title, description, base, lastUpdated, head, themeConfig and locales,
    and the keys of its [themeConfig] record (and of each locale's
    [themeConfig] record) are among logo, socialLinks, algolia, footer,
    editLink, nav and sidebar. *)
Theorem recognized_keys (sc : Scope) :
  own_keys (user_config sc) = site_keys
  /\ NoDup (own_keys (user_config sc))
  /\ (exists tc,
        prop "themeConfig" (user_config sc) = Some tc
        /\ own_keys tc
           = ["logo"; "socialLinks"; "algolia"; "footer"; "editLink"]
        /\ incl (own_keys tc) theme_keys)
  /\ Forall (fun loc =>
               exists tc,
                 path ["locales"; loc; "themeConfig"] (user_config sc) = Some tc
                 /\ own_keys tc = ["nav"; "sidebar"]
                 /\ incl (own_keys tc) theme_keys)
            ["root"; "en"].
Proof.
  split; [reflexivity|].
  split; [unfold user_config, own_keys, map, fst; keys_distinct|].
  split.
  - eexists. split; [reflexivity|]. split; [reflexivity|].
    now apply keys_among_incl.
  - repeat constructor;
      (eexists; split; [reflexivity|]; split; [reflexivity|];
       now apply keys_among_incl).
Qed.

(** ** Link targets of the English locale *)

(** C9: in [en_nav] the [activeMatch] prefixes of the guide and reference
    entries are ['/guide/'] and ['/reference/'], the same as in [cn_nav],
    although the link targets of the English entries are under ['/en/']. *)
Theorem en_nav_active_match (sc : Scope) :
  active_matches (en_nav sc tt) = [Some "/guide/"; Some "/reference/"; None]
  /\ active_matches (en_nav sc tt) = active_matches (cn_nav sc tt)
  /\ link_targets (en_nav sc tt)
     = [Some "/en/guide/what-is-f2"; Some "/en/reference/site-config"; None]
  /\ map (under "/en/") (firstn 2 (link_targets (en_nav sc tt))) = [true; true]
  /\ map (under "/en/") (firstn 2 (active_matches (en_nav sc tt)))
     = [false; false]
  /\ map (under "/en/") (firstn 2 (link_targets (cn_nav sc tt)))
     = [false; false].
Proof. repeat split. Qed.

(** C10: in the English sidebar the single item of the ['/guide/'] group
    links to ['/api-examples'], which is not under ['/en/'], whereas every
    item of the English ['/'] group links under ['/en/']; the item of the
    root locale's ['/guide/'] group links to the same ['/api-examples']. *)
Theorem en_sidebar_guide_link (sc : Scope) :
  exists se sr en_guide en_top root_guide,
    locale_sidebar (user_config sc) "en" = Some se
    /\ locale_sidebar (user_config sc) "root" = Some sr
    /\ prop "/guide/" se = Some en_guide
    /\ prop "/" se = Some en_top
    /\ prop "/guide/" sr = Some root_guide
    /\ group_sizes en_guide = [1%nat]
    /\ group_links en_guide = [Some "/api-examples"]
    /\ map (under "/en/") (group_links en_guide) = [false]
    /\ group_links en_top
       = [Some "/en/install"; Some "/en/quick-start"; Some "/en/advance-guide"]
    /\ forallb (under "/en/") (group_links en_top) = true
    /\ group_links root_guide = group_links en_guide.
Proof.
  do 5 eexists.
  repeat (split; [reflexivity|]). reflexivity.
Qed.

(** ** Loading the module *)


(** X2: once the module has loaded, the text of the version dropdown of
    both locales is the constant ['v0.0.1-pw.1'], whatever version the
    required package description carries. *)
Theorem version_text_constant (h : Host) (sc : Scope) :
  module_scope h = Some sc ->
  version_text (user_config sc) "root" = Some "v0.0.1-pw.1"
  /\ version_text (user_config sc) "en" = Some "v0.0.1-pw.1".
Proof.
  intros H. unfold version_text. simpl.
  rewrite (module_scope_version _ _ H). split; reflexivity.
Qed.

Lemma version_text_constant_witness :
  option_map (fun s => str_prop "version" (pkg s)) (module_scope other_host)
  = Some (Some "1.0.0")
  /\ option_map (fun s => version_text (user_config s) "root")
       (module_scope other_host) = Some (Some "v0.0.1-pw.1")
  /\ option_map (fun s => version_text (user_config s) "en")
       (module_scope other_host) = Some (Some "v0.0.1-pw.1").
Proof.
  split; [reflexivity|].
  destruct (version_text_constant other_host _ eq_refl) as [Hr He].
  split; simpl; [rewrite <- Hr | rewrite <- He]; reflexivity.
Defined.

(** ** No property is shadowed *)

Lemma distinct_keys_NoDup (ks : list string) :
  distinct_keys ks = true <-> NoDup ks.
Proof.
  induction ks as [|k r IH]; simpl.
  - split; [constructor | reflexivity].
  - rewrite andb_true_iff, negb_true_iff, IH. split.
    + intros [Hk Hr]. constructor; [|exact Hr].
      intros Hin. assert (existsb (String.eqb k) r = true) as E.
      { apply existsb_exists. exists k. split; [exact Hin|].
        apply String.eqb_refl. }
      congruence.
    + intros Hnd. inversion Hnd as [|? ? Hk Hr]; subst. split; [|exact Hr].
      destruct (existsb (String.eqb k) r) eqn:E; [|reflexivity].
      apply existsb_exists in E as (j & Hj & Heq).
      apply String.eqb_eq in Heq. subst. contradiction.
Qed.

(** With keys written once, it does not matter which occurrence wins. *)
Lemma lookup_first_last k ps :
  NoDup (map fst ps) -> lookup_last k ps = lookup_first k ps.
Proof.
  induction ps as [|[j v] r IH]; simpl; intros Hnd; [reflexivity|].
  inversion Hnd as [|? ? Hj Hr]; subst.
  destruct (String.eqb_spec k j) as [->|Hne].
  - now rewrite (lookup_last_absent _ _ Hj).
  - rewrite (IH Hr). now destruct (lookup_first k r).
Qed.

Lemma keys_written_once_prop k v w :
  keys_written_once v = true -> prop k v = Some w ->
  keys_written_once w = true.
Proof.
  destruct v as [| | | |ps]; simpl; try discriminate.
  intros H Hk. apply andb_true_iff in H as [_ H].
  apply lookup_last_In in Hk.
  rewrite forallb_forall in H. exact (H _ Hk).
Qed.

Lemma path_first_agrees (ks : list string) :
  forall v, keys_written_once v = true -> path ks v = path_first ks v.
Proof.
  induction ks as [|k r IH]; intros v Hv; [reflexivity|].
  simpl.
  assert (Hp : prop k v = prop_first k v).
  { destruct v as [| | | |ps]; try reflexivity.
    simpl in Hv |- *. apply andb_true_iff in Hv as [Hd _].
    apply lookup_first_last. now apply distinct_keys_NoDup. }
  rewrite <- Hp.
  destruct (prop k v) as [w|] eqn:Hk; [|reflexivity].
  apply IH. exact (keys_written_once_prop _ _ _ Hv Hk).
Qed.

(** X3: no object literal anywhere in the configuration, the results of
    [cn_nav] and [en_nav] included, writes a key twice; hence every
    property path reads the same value whether the first or the last
    written occurrence of a key is taken. *)
Theorem config_reads_unambiguous (sc : Scope) :
  keys_written_once (user_config sc) = true
  /\ keys_written_once (cn_nav sc tt) = true
  /\ keys_written_once (en_nav sc tt) = true
  /\ forall ks, path ks (user_config sc) = path_first ks (user_config sc).
Proof.
  assert (H : keys_written_once (user_config sc) = true) by reflexivity.
  split; [exact H|]. split; [reflexivity|]. split; [reflexivity|].
  intros ks. now apply path_first_agrees.
Qed.

(** ** Link targets *)

(** [all_links] misses nothing: it holds the [link] of every object it
    passes through, and the links of every property value and array
    element. *)
Lemma all_links_inside k v w :
  prop k v = Some w -> incl (all_links w) (all_links v).
Proof.
  destruct v as [| | | |ps]; simpl; try discriminate.
  intros H l Hl. apply lookup_last_In in H.
  apply in_flat_map. exists (k, w). split; [exact H|].
  apply in_or_app. now right.
Qed.

Lemma all_links_own v l : prop "link" v = Some l -> In l (all_links v).
Proof.
  destruct v as [| | | |ps]; simpl; try discriminate.
  intros H. apply lookup_last_In in H.
  apply in_flat_map. exists ("link", l). split; [exact H|].
  simpl. now left.
Qed.

Lemma all_links_element v x :
  In x (elements v) -> incl (all_links x) (all_links v).
Proof.
  destruct v as [| | |l|]; simpl; try contradiction.
  intros Hx y Hy. apply in_flat_map. now exists x.
Qed.

(** X4: the configuration writes eighteen link targets in all (social
    links, navigation entries and their children, sidebar items); each is
    a string that is a site-rooted path (twelve of them) or an https URL
    (six of them), and no site-rooted one repeats the base path
    ['/f2/']. *)
Theorem link_targets_well_formed (sc : Scope) :
  length (all_links (user_config sc)) = 18%nat
  /\ forallb (fun l => xorb (site_rooted l) (https_url l))
       (all_links (user_config sc)) = true
  /\ length (filter site_rooted (all_links (user_config sc))) = 12%nat
  /\ length (filter https_url (all_links (user_config sc))) = 6%nat
  /\ existsb (repeats_base (user_config sc)) (all_links (user_config sc))
     = false
  /\ str_prop "base" (user_config sc) = Some "/f2/".
Proof. repeat split. Qed.

(** X5: the English navigation mirrors the root one under ['/en']: the
    link targets of the guide and reference entries of [en_nav] are those
    of [cn_nav] with ['/en'] put in front, the children of the version
    dropdown link to the same targets in both, and the link targets of
    the English sidebar's ['/'] groups are the root ones with ['/en'] put
    in front. *)
Theorem en_mirrors_root (sc : Scope) :
  firstn 2 (link_targets (en_nav sc tt))
  = map en_of (firstn 2 (link_targets (cn_nav sc tt)))
  /\ child_links (en_nav sc tt) = child_links (cn_nav sc tt)
  /\ exists sr se gr ge,
       locale_sidebar (user_config sc) "root" = Some sr
       /\ locale_sidebar (user_config sc) "en" = Some se
       /\ prop "/" sr = Some gr
       /\ prop "/" se = Some ge
       /\ group_links ge = map en_of (group_links gr)
       /\ length (group_links gr) = 3%nat.
Proof.
  split; [reflexivity|]. split; [reflexivity|].
  do 4 eexists. repeat (split; [reflexivity|]). reflexivity.
Qed.

(** X6: in the navigation of either locale, the [activeMatch] text of each
    link entry occurs in that entry's own link target and in the link
    target of no other link entry. *)
Theorem active_match_own_target (sc : Scope) :
  active_match_table (cn_nav sc tt) = [[true; false]; [false; true]]
  /\ active_match_table (en_nav sc tt) = [[true; false]; [false; true]].
Proof. split; reflexivity. Qed.

(** ** Locale records and sidebars *)

(** X7: each locale record has exactly the keys label, lang and
    themeConfig; its themeConfig shares no key with the site-level
    themeConfig; and the two locales carry different language tags
    (['zh'] and ['en']) and different labels. *)
Theorem locale_records (sc : Scope) :
  exists site_tc,
    prop "themeConfig" (user_config sc) = Some site_tc
    /\ Forall (fun loc =>
                 exists r tc,
                   path ["locales"; loc] (user_config sc) = Some r
                   /\ own_keys r = ["label"; "lang"; "themeConfig"]
                   /\ prop "themeConfig" r = Some tc
                   /\ keys_disjoint (own_keys tc) (own_keys site_tc) = true)
              ["root"; "en"]
    /\ map (fun loc => path ["locales"; loc; "lang"] (user_config sc))
         ["root"; "en"] = [Some (JStr "zh"); Some (JStr "en")]
    /\ NoDup (map (fun loc => path ["locales"; loc; "lang"] (user_config sc))
                ["root"; "en"])
    /\ NoDup (map (fun loc => path ["locales"; loc; "label"] (user_config sc))
                ["root"; "en"]).
Proof.
  eexists. split; [reflexivity|]. split.
  - repeat constructor;
      (do 2 eexists; repeat (split; [reflexivity|]); reflexivity).
  - split; [reflexivity|].
    split; repeat (constructor; [simpl; intuition discriminate|]);
      constructor.
Qed.

(** X8: in both locales the sidebar maps every URL prefix to a non-empty
    list of groups, every group has a text and at least one item, and
    every item has a text and a link target, both strings. *)
Theorem sidebars_well_formed (sc : Scope) :
  Forall (fun loc =>
            exists sb,
              locale_sidebar (user_config sc) loc = Some sb
              /\ is_sidebar sb = true
              /\ own_keys sb <> [])
         ["root"; "en"].
Proof.
  repeat constructor;
    (eexists; split; [reflexivity|]; split; [reflexivity|]; discriminate).
Qed.
